(** * The render pipeline of [app/main.py]

    A shallow embedding of [render_markdown], the handler of
    [POST /render], together with the parts of the Python runtime it
    calls: [subprocess.run], [bytes.decode("utf-8")] and
    [markdown.markdown]. *)

From Stdlib Require Import ZArith Lia List Bool.
From Stdlib Require Import Strings.Byte.
From stdpp Require Import base option list strings gmap.

Local Open Scope Z_scope.

(** ** Python values *)

(** A Python [bytes] object. *)
Definition bytes := list Byte.byte.

(** A Python [str]: a sequence of code points ([ord] of each character). *)
Definition str := list Z.

(** The numeric value of a byte, [0 .. 255]. *)
Definition byte_val (b : Byte.byte) : Z := Z.of_N (Byte.to_N b).

Definition byte_of_Z (z : Z) : Byte.byte :=
  match Byte.of_N (Z.to_N z) with
  | Some b => b
  | None => Byte.x00
  end.

(** A [str] literal of ASCII characters. *)
Definition lit (s : string) : str :=
  map (fun a => Z.of_N (Ascii.N_of_ascii a)) (String.list_ascii_of_string s).

(** ** UTF-8 *)

Module Utf8.

(** [lo <= b <= hi] on a byte. *)
Definition between (lo hi : Z) (b : Byte.byte) : bool :=
  (lo <=? byte_val b) && (byte_val b <=? hi).

(** A continuation byte, [0x80 .. 0xBF]. *)
Definition is_cont (b : Byte.byte) : bool := between 0x80 0xBF b.

(** The payload of a continuation byte. *)
Definition cont_bits (b : Byte.byte) : Z := byte_val b - 0x80.

(** The range of the second byte after the lead byte [v0] of a
    three-byte sequence: [E0] excludes overlong forms, [ED] excludes
    the surrogates. *)
Definition second_of3 (v0 : Z) (b : Byte.byte) : bool :=
  if v0 =? 0xE0 then between 0xA0 0xBF b
  else if v0 =? 0xED then between 0x80 0x9F b
  else is_cont b.

(** The same for a four-byte sequence: [F0] excludes overlong forms,
    [F4] excludes code points above [0x10FFFF]. *)
Definition second_of4 (v0 : Z) (b : Byte.byte) : bool :=
  if v0 =? 0xF0 then between 0x90 0xBF b
  else if v0 =? 0xF4 then between 0x80 0x8F b
  else is_cont b.

(** The strict UTF-8 decoder: [None] at the first ill-formed sequence
    (a stray continuation byte, an overlong form, a surrogate, a code
    point above [0x10FFFF], a truncated sequence, a byte [>= 0xF5]). *)
Fixpoint decode (bs : bytes) : option str :=
  match bs with
  | [] => Some []
  | b0 :: r0 =>
    let v0 := byte_val b0 in
    if v0 <? 0x80 then cons v0 <$> decode r0
    else if v0 <? 0xC2 then None
    else if v0 <? 0xE0 then
      match r0 with
      | b1 :: r1 =>
        if is_cont b1
        then cons ((v0 - 0xC0) * 64 + cont_bits b1) <$> decode r1
        else None
      | _ => None
      end
    else if v0 <? 0xF0 then
      match r0 with
      | b1 :: b2 :: r2 =>
        if second_of3 v0 b1 && is_cont b2
        then cons ((v0 - 0xE0) * 4096 + cont_bits b1 * 64 + cont_bits b2)
               <$> decode r2
        else None
      | _ => None
      end
    else if v0 <? 0xF5 then
      match r0 with
      | b1 :: b2 :: b3 :: r3 =>
        if second_of4 v0 b1 && is_cont b2 && is_cont b3
        then cons ((v0 - 0xF0) * 262144 + cont_bits b1 * 4096
                   + cont_bits b2 * 64 + cont_bits b3)
               <$> decode r3
        else None
      | _ => None
      end
    else None
  end.

(** A Unicode scalar value: a code point that is not a surrogate. *)
Definition is_scalar (c : Z) : Prop :=
  0 <= c < 0xD800 \/ 0xE000 <= c <= 0x10FFFF.

(** The UTF-8 encoded form of one code point. *)
Definition encode_cp (c : Z) : bytes :=
  if c <? 0x80 then [byte_of_Z c]
  else if c <? 0x800 then
    [byte_of_Z (0xC0 + c / 64); byte_of_Z (0x80 + c mod 64)]
  else if c <? 0x10000 then
    [byte_of_Z (0xE0 + c / 4096); byte_of_Z (0x80 + (c / 64) mod 64);
     byte_of_Z (0x80 + c mod 64)]
  else
    [byte_of_Z (0xF0 + c / 262144); byte_of_Z (0x80 + (c / 4096) mod 64);
     byte_of_Z (0x80 + (c / 64) mod 64); byte_of_Z (0x80 + c mod 64)].

Definition encode (s : str) : bytes := flat_map encode_cp s.

(** Valid UTF-8, by the definition of the encoding form: the bytes are
    the encoded form of a sequence of Unicode scalar values. *)
Definition is_encoding_of (s : str) (bs : bytes) : Prop :=
  Forall is_scalar s /\ encode s = bs.

Definition valid (bs : bytes) : Prop := exists s, is_encoding_of s bs.

End Utf8.

(** ** The runtime: exceptions, processes and the effect monad *)

(** Why a child process could not be started, with the Python exception
    that [subprocess.run] raises for it. *)
Inductive launch_failure :=
| NotFound                  (* FileNotFoundError: no such executable *)
| NotPermitted              (* PermissionError: the file is not executable *)
| BadArgument               (* ValueError: an argument the system cannot take *)
| OtherFailure (errno : Z). (* any other OSError of fork and exec *)

(** The exceptions the handler can meet. [ProcessLaunchError] is the
    name of the specification for what [subprocess.run] raises when the
    child cannot be started; [UnicodeDecodeError], raised by
    [bytes.decode], is its [DecodeError]. *)
Inductive exception :=
| ProcessLaunchError (f : launch_failure)
| CalledProcessError (returncode : Z)
| AttributeError
| UnicodeDecodeError.

(** What a terminated child process leaves behind. *)
Record proc_outcome := ProcOutcome {
  exit_status : Z;
  out_bytes : bytes;
  err_bytes : bytes
}.

(** What the system answers to a launch: a refusal, or the child's end. *)
Definition launched : Type := launch_failure + proc_outcome.

(** [subprocess.CompletedProcess]; a stream that was not captured is
    [None]. *)
Record CompletedProcess := {
  args : list str;
  returncode : Z;
  stdout : option bytes;
  stderr : option bytes
}.

(** The keyword arguments of [subprocess.run] and their defaults. *)
Record run_kwargs := {
  shell : bool;
  input : option bytes;
  capture_output : bool;
  check : bool
}.

Definition run_defaults : run_kwargs :=
  {| shell := false; input := None; capture_output := false; check := false |}.

Definition with_capture_output (b : bool) (k : run_kwargs) : run_kwargs :=
  {| shell := shell k; input := input k; capture_output := b;
     check := check k |}.

Definition with_check (b : bool) (k : run_kwargs) : run_kwargs :=
  {| shell := shell k; input := input k; capture_output := capture_output k;
     check := b |}.

(** The calls the handler makes to its collaborators, in order. *)
Inductive event :=
| EvSpawn (argv : list str) (stdin : option bytes)
| EvDecode (b : bytes)
| EvMarkdown (text : str) (extensions : list str).

(** Truthiness of a [str]: non-empty. *)
Definition truthy (s : str) : bool :=
  match s with
  | [] => false
  | _ :: _ => true
  end.

Section Runtime.

(** The state of the operating system (what is installed, what the
    programs do next) and the request object are opaque. *)
Context {OS Request : Type}.

(** Starting a program with an argument vector and a standard input,
    and waiting for it: either the system refuses the launch or the
    child runs to its end. The system may change state. *)
Variable os_spawn :
  OS -> list str -> option bytes -> launched * OS.

(** [markdown.markdown(text, extensions=...)], a pure function. *)
Variable markdown_markdown : str -> list str -> str.

Record machine := Machine {
  os : OS;
  log : list event
}.

(** Computations that read and change the machine and may raise. *)
Definition M (A : Type) : Type := machine -> (exception + A) * machine.

Definition ret {A} (a : A) : M A := fun m => (inr a, m).

Definition raise {A} (e : exception) : M A := fun m => (inl e, m).

Definition bind {A B} (c : M A) (k : A -> M B) : M B :=
  fun m =>
    match c m with
    | (inl e, m') => (inl e, m')
    | (inr a, m') => k a m'
    end.

Definition emit (e : event) : M unit :=
  fun m => (inr tt, {| os := os m; log := log m ++ [e] |}).

Notation "'do' x <- c ; k" := (bind c (fun x => k))
  (at level 10, x name, c at level 100, k at level 200).

(** [subprocess.run(args, **kwargs)] on POSIX: with [shell=True] the
    arguments go to [/bin/sh -c]; [check=True] turns a non-zero exit
    status into [CalledProcessError]; only [capture_output=True]
    keeps the two streams. *)
Definition subprocess_run (a : list str) (k : run_kwargs)
  : M CompletedProcess :=
  let argv := if shell k then [lit "/bin/sh"; lit "-c"] ++ a else a in
  do _ <- emit (EvSpawn argv (input k));
  fun m =>
    let '(r, os') := os_spawn (os m) argv (input k) in
    let m' := {| os := os'; log := log m |} in
    match r with
    | inl e => (inl (ProcessLaunchError e), m')
    | inr p =>
      if check k && negb (exit_status p =? 0)
      then (inl (CalledProcessError (exit_status p)), m')
      else
        let kept (b : bytes) := if capture_output k then Some b else None in
        (inr {| args := a;
                returncode := exit_status p;
                stdout := kept (out_bytes p);
                stderr := kept (err_bytes p) |},
         m')
    end.

(** [stream.decode("utf-8")], the error handler being the default
    ["strict"]; on [None] the attribute lookup fails. *)
Definition decode_utf8 (stream : option bytes) : M str :=
  match stream with
  | None => raise AttributeError
  | Some b =>
    do _ <- emit (EvDecode b);
    match Utf8.decode b with
    | Some s => ret s
    | None => raise UnicodeDecodeError
    end
  end.

Definition markdown (text : str) (extensions : list str) : M str :=
  do _ <- emit (EvMarkdown text extensions);
  ret (markdown_markdown text extensions).

(** The values of a template context. *)
Inductive value :=
| VRequest (r : Request)
| VStr (s : str).

(** [templates.TemplateResponse(name, context)]. *)
Record TemplateResponse := {
  name : string;
  context : gmap string value
}.

(** [render_markdown], the handler of [POST /render]. *)
Definition render_markdown (request : Request) (markdown_text : str)
  : M TemplateResponse :=
  do result <- subprocess_run [lit "wod"; lit "check"; markdown_text]
                 (with_check false (with_capture_output true run_defaults));
  do ok <- decode_utf8 (stdout result);
  do to_render <- (if truthy ok then ret ok else decode_utf8 (stderr result));
  do rendered_html <- markdown to_render [lit "fenced_code"; lit "codehilite"];
  ret {| name := "index.html";
         context := {[ "request" := VRequest request;
                       "markdown_text" := VStr markdown_text;
                       "rendered_html" := VStr rendered_html ]} |}.

(** Two requests with the same submission, one after the other. *)
Definition render_twice (request : Request) (markdown_text : str)
  : M (TemplateResponse * TemplateResponse) :=
  do first <- render_markdown request markdown_text;
  do second <- render_markdown request markdown_text;
  ret (first, second).

End Runtime.

Arguments machine : clear implicits.
Arguments M : clear implicits.
Arguments value : clear implicits.
Arguments TemplateResponse : clear implicits.

(** ** Observations on a run *)

(** The process launches recorded in a log. *)
Definition spawned (l : list event) : list (list str * option bytes) :=
  flat_map (fun e => match e with EvSpawn a i => [(a, i)] | _ => [] end) l.

(** The byte strings handed to the decoder. *)
Definition decoded (l : list event) : list bytes :=
  flat_map (fun e => match e with EvDecode b => [b] | _ => [] end) l.

(** The calls of the Markdown renderer: payload and extensions. *)
Definition rendered (l : list event) : list (str * list str) :=
  flat_map (fun e => match e with EvMarkdown t x => [(t, x)] | _ => [] end) l.

(** The echoed submission and the HTML fragment of a response. *)
Definition echoed {Request} (r : TemplateResponse Request)
  : option (value Request) :=
  context r !! "markdown_text".

Definition html {Request} (r : TemplateResponse Request)
  : option (value Request) :=
  context r !! "rendered_html".

(** The extensions the handler enables. *)
Definition extensions : list str := [lit "fenced_code"; lit "codehilite"].

(** The argument vector of the Validator for a submission. *)
Definition validator_argv (submission : str) : list str :=
  [lit "wod"; lit "check"; submission].

(** The selection rule in the words of the specification: the decoded
    standard output when it is non-empty, otherwise the decoded standard
    error; a stream that has to be decoded and is not text is a decode
    error. *)
Definition select_payload (out err : bytes) : exception + str :=
  match Utf8.decode out with
  | None => inl UnicodeDecodeError
  | Some [] =>
    match Utf8.decode err with
    | None => inl UnicodeDecodeError
    | Some t => inr t
    end
  | Some t => inr t
  end.

(** The page the handler answers with, as the specification describes
    it: the template [index.html] filled with the request, the echoed
    submission and the HTML fragment. *)
Definition index_page {Request} (request : Request)
    (markdown_text rendered_html : str) : TemplateResponse Request :=
  {| name := "index.html";
     context := {[ "request" := VRequest request;
                   "markdown_text" := VStr markdown_text;
                   "rendered_html" := VStr rendered_html ]} |}.

(** The contract [render(submission)] of the specification, as a function
    of what the launch of the Validator gave: a launch error propagates,
    so does a decode error, otherwise the page holds the submission and
    the rendering of the selected payload. *)
Definition render_contract {Request}
    (markdown_markdown : str -> list str -> str)
    (request : Request) (submission : str) (launch : launched)
  : exception + TemplateResponse Request :=
  match launch with
  | inl e => inl (ProcessLaunchError e)
  | inr p =>
    match select_payload (out_bytes p) (err_bytes p) with
    | inl e => inl e
    | inr t =>
      inr (index_page request submission (markdown_markdown t extensions))
    end
  end.

(** The two streams of a launch, when the child ran. *)
Definition streams (launch : launched) : option (bytes * bytes) :=
  match launch with
  | inl _ => None
  | inr p => Some (out_bytes p, err_bytes p)
  end.

(** A deterministic Validator: for the same arguments, the same bytes on
    the two streams, whatever the state of the system. *)
Definition deterministic {OS}
    (os_spawn : OS -> list str -> option bytes -> launched * OS)
    (argv : list str) : Prop :=
  forall o1 o2 : OS,
    streams (os_spawn o1 argv None).1 = streams (os_spawn o2 argv None).1.

(** The calls of one run of the handler, by the outcome of the launch and
    of the decoding. *)
Definition calls_made (submission : str) (launch : launched)
  : list event :=
  EvSpawn (validator_argv submission) None ::
  match launch with
  | inl _ => []
  | inr p =>
    EvDecode (out_bytes p) ::
    match Utf8.decode (out_bytes p) with
    | None => []
    | Some [] =>
      EvDecode (err_bytes p) ::
      match Utf8.decode (err_bytes p) with
      | None => []
      | Some t => [EvMarkdown t extensions]
      end
    | Some t => [EvMarkdown t extensions]
    end
  end.

(** The variables the handler gives to the template. *)
Definition page_keys : gset string :=
  {[ "request"; "markdown_text"; "rendered_html" ]}.

(** A byte of the ASCII range. *)
Definition is_ascii (b : Byte.byte) : Prop := byte_val b < 0x80.

(** The bytes that no UTF-8 text contains: [C0], [C1] and [F5 .. FF]. *)
Definition never_in_utf8 (b : Byte.byte) : Prop :=
  byte_val b = 0xC0 \/ byte_val b = 0xC1 \/ 0xF5 <= byte_val b.

(** The first byte of a sequence of several bytes. *)
Definition is_lead (b : Byte.byte) : Prop := 0xC0 <= byte_val b.

(** ** Two concrete systems, for examples *)

Module Mock.

(** A renderer that wraps its input in a paragraph. *)
Definition paragraph (text : str) (_ : list str) : str :=
  lit "<p>" ++ text ++ lit "</p>".

(** A scripted system: its state is the list of the outcomes of the
    launches to come; with none left the executable is missing. *)
Definition scripted (o : list launched) (_ : list str) (_ : option bytes)
  : launched * list launched :=
  match o with
  | [] => (inl NotFound, [])
  | r :: o' => (r, o')
  end.

(** A deterministic validator: it prints its last argument in upper
    case, or complains on standard error when that is empty. The state
    counts the launches. *)
Definition upper (c : Z) : Z :=
  if (0x61 <=? c) && (c <=? 0x7A) then c - 0x20 else c.

Definition shout (n : nat) (argv : list str) (_ : option bytes)
  : launched * nat :=
  match argv with
  | [_; _; []] =>
    (inr (ProcOutcome 1 [] (Utf8.encode (lit "error: nothing to check"))), S n)
  | [_; _; s] =>
    (inr (ProcOutcome (Z.of_nat n) (Utf8.encode (map upper s)) []), S n)
  | _ => (inl NotFound, S n)
  end.

Definition boot {OS} (o : OS) : machine OS := Machine o [].

(** The scripted system about to run one child that succeeds, one that
    complains, one that says nothing, and one whose diagnostics are
    not text after a good or an empty standard output. *)
Definition ok : proc_outcome :=
  ProcOutcome 0 (Utf8.encode (lit "ok")) (Utf8.encode (lit "note")).

Definition bad : proc_outcome :=
  ProcOutcome 1 [] (Utf8.encode (lit "bad")).

Definition silent : proc_outcome := ProcOutcome 0 [] [].

Definition ok_garbled : proc_outcome :=
  ProcOutcome 0 (Utf8.encode (lit "ok")) [Byte.xe9].

Definition garbled : proc_outcome := ProcOutcome 2 [] [Byte.xe9].

(** A child that writes ASCII, one that writes UTF-16 with its byte
    order mark, and one that writes Latin-1 and stops on an accent. *)
Definition hello : proc_outcome :=
  ProcOutcome 0 [Byte.x68; Byte.x69; Byte.x0a] [].

Definition utf16 : proc_outcome :=
  ProcOutcome 0 [Byte.xff; Byte.xfe; Byte.x68; Byte.x00] [].

Definition latin1 : proc_outcome :=
  ProcOutcome 1 [] [Byte.x63; Byte.x61; Byte.x66; Byte.xe9].

Definition about_to (p : proc_outcome)
  : machine (list launched) :=
  boot [inr p].

End Mock.

(** ** Arithmetic of bytes *)

Lemma byte_val_range (b : Byte.byte) : 0 <= byte_val b < 256.
Proof.
  unfold byte_val. pose proof (Byte.to_N_bounded b). lia.
Qed.

Lemma byte_val_of_Z (z : Z) : 0 <= z < 256 -> byte_val (byte_of_Z z) = z.
Proof.
  intros Hz. unfold byte_val, byte_of_Z.
  destruct (Byte.of_N (Z.to_N z)) as [b|] eqn:E.
  - apply Byte.to_of_N in E. rewrite E. lia.
  - apply Byte.of_N_None_iff in E. lia.
Qed.

Lemma byte_of_Z_val (b : Byte.byte) : byte_of_Z (byte_val b) = b.
Proof.
  unfold byte_val, byte_of_Z. rewrite N2Z.id, Byte.of_to_N. reflexivity.
Qed.

Lemma byte_of_Z_eq (z : Z) (b : Byte.byte) : z = byte_val b -> byte_of_Z z = b.
Proof. intros ->. apply byte_of_Z_val. Qed.

(** ** The decoder against the encoding form *)

Module Utf8Facts.
Import Utf8.

Ltac reflect_bool :=
  repeat match goal with
  | H : (_ && _) = true |- _ => apply andb_true_iff in H; destruct H
  | H : (_ <? _) = true |- _ => apply Z.ltb_lt in H
  | H : (_ <? _) = false |- _ => apply Z.ltb_ge in H
  | H : (_ <=? _) = true |- _ => apply Z.leb_le in H
  | H : (_ <=? _) = false |- _ => apply Z.leb_gt in H
  | H : (_ =? _) = true |- _ => apply Z.eqb_eq in H
  | H : (_ =? _) = false |- _ => apply Z.eqb_neq in H
  end.

(** Decide the comparisons of the goal by arithmetic. *)
Ltac decide_tests :=
  repeat match goal with
  | |- context [?a <? ?b] =>
    first [ replace (a <? b) with true by (symmetry; apply Z.ltb_lt; lia)
          | replace (a <? b) with false by (symmetry; apply Z.ltb_ge; lia) ]
  | |- context [?a <=? ?b] =>
    first [ replace (a <=? b) with true by (symmetry; apply Z.leb_le; lia)
          | replace (a <=? b) with false by (symmetry; apply Z.leb_gt; lia) ]
  | |- context [?a =? ?b] =>
    first [ replace (a =? b) with true by (symmetry; apply Z.eqb_eq; lia)
          | replace (a =? b) with false by (symmetry; apply Z.eqb_neq; lia) ]
  end.

Lemma between_spec lo hi b :
  between lo hi b = true <-> lo <= byte_val b <= hi.
Proof.
  unfold between. rewrite andb_true_iff, Z.leb_le, Z.leb_le. tauto.
Qed.

Lemma is_cont_spec b : is_cont b = true <-> 0x80 <= byte_val b <= 0xBF.
Proof. apply between_spec. Qed.

Lemma second_of3_spec v0 b :
  second_of3 v0 b = true <->
  (if v0 =? 0xE0 then 0xA0 else 0x80) <= byte_val b
    <= (if v0 =? 0xED then 0x9F else 0xBF).
Proof.
  unfold second_of3, is_cont.
  destruct (v0 =? 0xE0) eqn:E0, (v0 =? 0xED) eqn:E1;
    rewrite between_spec; reflect_bool; lia.
Qed.

Lemma second_of4_spec v0 b :
  second_of4 v0 b = true <->
  (if v0 =? 0xF0 then 0x90 else 0x80) <= byte_val b
    <= (if v0 =? 0xF4 then 0x8F else 0xBF).
Proof.
  unfold second_of4, is_cont.
  destruct (v0 =? 0xF0) eqn:E0, (v0 =? 0xF4) eqn:E1;
    rewrite between_spec; reflect_bool; lia.
Qed.

Lemma decode_nil : decode [] = Some [].
Proof. reflexivity. Qed.

(** One step of the decoder, by the number of bytes it consumes. *)
Lemma decode_1 b0 r :
  byte_val b0 < 0x80 ->
  decode (b0 :: r) = cons (byte_val b0) <$> decode r.
Proof.
  intros H. cbn [decode]. cbv zeta. decide_tests. reflexivity.
Qed.

Lemma decode_2 b0 b1 r :
  0xC2 <= byte_val b0 < 0xE0 ->
  is_cont b1 = true ->
  decode (b0 :: b1 :: r)
  = cons ((byte_val b0 - 0xC0) * 64 + cont_bits b1) <$> decode r.
Proof.
  intros H H1. cbn [decode]. cbv zeta. decide_tests. rewrite H1. reflexivity.
Qed.

Lemma decode_3 b0 b1 b2 r :
  0xE0 <= byte_val b0 < 0xF0 ->
  second_of3 (byte_val b0) b1 = true ->
  is_cont b2 = true ->
  decode (b0 :: b1 :: b2 :: r)
  = cons ((byte_val b0 - 0xE0) * 4096 + cont_bits b1 * 64 + cont_bits b2)
      <$> decode r.
Proof.
  intros H H1 H2. cbn [decode]. cbv zeta. decide_tests.
  rewrite H1, H2. reflexivity.
Qed.

Lemma decode_4 b0 b1 b2 b3 r :
  0xF0 <= byte_val b0 < 0xF5 ->
  second_of4 (byte_val b0) b1 = true ->
  is_cont b2 = true ->
  is_cont b3 = true ->
  decode (b0 :: b1 :: b2 :: b3 :: r)
  = cons ((byte_val b0 - 0xF0) * 262144 + cont_bits b1 * 4096
          + cont_bits b2 * 64 + cont_bits b3)
      <$> decode r.
Proof.
  intros H H1 H2 H3. cbn [decode]. cbv zeta. decide_tests.
  rewrite H1, H2, H3. reflexivity.
Qed.

(** The bytes of an encoded code point are what [byte_of_Z] was given. *)
Ltac byte_vals :=
  rewrite ?byte_val_of_Z by (Z.to_euclidean_division_equations; lia).

(** Decoding reads back an encoded scalar value and goes on. *)
Lemma decode_encode_cp c r :
  is_scalar c -> decode (encode_cp c ++ r) = cons c <$> decode r.
Proof.
  intros Hc. unfold is_scalar in Hc. unfold encode_cp.
  destruct (c <? 0x80) eqn:E1; [|destruct (c <? 0x800) eqn:E2;
    [|destruct (c <? 0x10000) eqn:E3]]; reflect_bool; cbn [app].
  - rewrite decode_1; byte_vals; [reflexivity | lia].
  - rewrite decode_2.
    + unfold cont_bits. byte_vals. f_equal. f_equal.
      Z.to_euclidean_division_equations; lia.
    + byte_vals. Z.to_euclidean_division_equations; lia.
    + apply is_cont_spec. byte_vals. Z.to_euclidean_division_equations; lia.
  - rewrite decode_3.
    + unfold cont_bits. byte_vals. f_equal. f_equal.
      Z.to_euclidean_division_equations; lia.
    + byte_vals. Z.to_euclidean_division_equations; lia.
    + apply second_of3_spec. byte_vals.
      destruct (_ =? 0xE0) eqn:E4, (_ =? 0xED) eqn:E5; reflect_bool;
        Z.to_euclidean_division_equations; lia.
    + apply is_cont_spec. byte_vals. Z.to_euclidean_division_equations; lia.
  - rewrite decode_4.
    + unfold cont_bits. byte_vals. f_equal. f_equal.
      Z.to_euclidean_division_equations; lia.
    + byte_vals. Z.to_euclidean_division_equations; lia.
    + apply second_of4_spec. byte_vals.
      destruct (_ =? 0xF0) eqn:E4, (_ =? 0xF4) eqn:E5; reflect_bool;
        Z.to_euclidean_division_equations; lia.
    + apply is_cont_spec. byte_vals. Z.to_euclidean_division_equations; lia.
    + apply is_cont_spec. byte_vals. Z.to_euclidean_division_equations; lia.
Qed.

Lemma decode_encode s : Forall is_scalar s -> decode (encode s) = Some s.
Proof.
  induction 1 as [|c s Hc Hs IH]; [reflexivity|].
  unfold encode in *. cbn [flat_map].
  rewrite decode_encode_cp, IH by assumption. reflexivity.
Qed.

Lemma fmap_cons_Some (c : Z) (o : option str) (s : str) :
  cons c <$> o = Some s -> exists s', s = c :: s' /\ o = Some s'.
Proof.
  destruct o as [s'|]; cbn; intros H; [|discriminate].
  injection H as <-. eauto.
Qed.

Ltac cont_facts :=
  repeat match goal with
  | H : is_cont _ = true |- _ => apply is_cont_spec in H
  | H : second_of3 _ _ = true |- _ => apply second_of3_spec in H
  | H : second_of4 _ _ = true |- _ => apply second_of4_spec in H
  end.

Ltac same_byte :=
  apply byte_of_Z_eq; unfold cont_bits;
  Z.to_euclidean_division_equations; lia.

(** Whatever the decoder accepts at the head of its input is the
    encoded form of the scalar value it produces. *)
Lemma decode_cons_inv b0 r0 s :
  decode (b0 :: r0) = Some s ->
  exists c r s',
    s = c :: s' /\ decode r = Some s' /\ is_scalar c /\
    b0 :: r0 = encode_cp c ++ r /\ (length r < length (b0 :: r0))%nat.
Proof.
  pose proof (byte_val_range b0) as R0.
  cbn [decode]. cbv zeta.
  destruct (byte_val b0 <? 0x80) eqn:T1.
  { intros H. apply fmap_cons_Some in H as (s' & -> & H).
    reflect_bool. exists (byte_val b0), r0, s'.
    repeat split; try assumption.
    - unfold is_scalar. lia.
    - unfold encode_cp. decide_tests. cbn [app]. f_equal.
      symmetry. apply byte_of_Z_val.
    - cbn [length]. lia. }
  destruct (byte_val b0 <? 0xC2) eqn:T2; [discriminate|].
  destruct (byte_val b0 <? 0xE0) eqn:T3.
  { destruct r0 as [|b1 r1]; [discriminate|].
    destruct (is_cont b1) eqn:C1; [|discriminate].
    intros H. apply fmap_cons_Some in H as (s' & -> & H).
    reflect_bool. cont_facts. eexists _, r1, s'.
    repeat split; try eassumption.
    - unfold is_scalar, cont_bits. lia.
    - unfold encode_cp, cont_bits. decide_tests. cbn [app].
      do 2 (apply (f_equal2 cons); [symmetry; same_byte|]). reflexivity.
    - cbn [length]. lia. }
  destruct (byte_val b0 <? 0xF0) eqn:T4.
  { destruct r0 as [|b1 [|b2 r2]]; try discriminate.
    destruct (second_of3 (byte_val b0) b1) eqn:C1; [|discriminate].
    destruct (is_cont b2) eqn:C2; [|discriminate]. cbn [andb].
    intros H. apply fmap_cons_Some in H as (s' & -> & H).
    reflect_bool. cont_facts. eexists _, r2, s'.
    assert (Hb1 : (byte_val b0 = 0xE0 -> 0xA0 <= byte_val b1) /\
                  (byte_val b0 = 0xED -> byte_val b1 <= 0x9F) /\
                  0x80 <= byte_val b1 <= 0xBF).
    { destruct (_ =? 0xE0) eqn:E4, (_ =? 0xED) eqn:E5 in C1;
        reflect_bool; lia. }
    clear C1.
    repeat split; try eassumption.
    - unfold is_scalar, cont_bits. lia.
    - unfold encode_cp, cont_bits. decide_tests. cbn [app].
      do 3 (apply (f_equal2 cons); [symmetry; same_byte|]). reflexivity.
    - cbn [length]. lia. }
  destruct (byte_val b0 <? 0xF5) eqn:T5; [|discriminate].
  destruct r0 as [|b1 [|b2 [|b3 r3]]]; try discriminate.
  destruct (second_of4 (byte_val b0) b1) eqn:C1; [|discriminate].
  destruct (is_cont b2) eqn:C2; [|discriminate].
  destruct (is_cont b3) eqn:C3; [|discriminate]. cbn [andb].
  intros H. apply fmap_cons_Some in H as (s' & -> & H).
  reflect_bool. cont_facts. eexists _, r3, s'.
  assert (Hb1 : (byte_val b0 = 0xF0 -> 0x90 <= byte_val b1) /\
                (byte_val b0 = 0xF4 -> byte_val b1 <= 0x8F) /\
                0x80 <= byte_val b1 <= 0xBF).
  { destruct (_ =? 0xF0) eqn:E4, (_ =? 0xF4) eqn:E5 in C1;
      reflect_bool; lia. }
  clear C1.
  repeat split; try eassumption.
  - unfold is_scalar, cont_bits. lia.
  - unfold encode_cp, cont_bits. decide_tests. cbn [app].
    do 4 (apply (f_equal2 cons); [symmetry; same_byte|]). reflexivity.
  - cbn [length]. lia.
Qed.

(** The decoder only accepts encoded forms of scalar values. *)
Lemma decode_Some_encoding bs s :
  decode bs = Some s -> is_encoding_of s bs.
Proof.
  remember (length bs) as n eqn:Hn.
  revert bs s Hn. induction (lt_wf n) as [n _ IH]. intros bs s -> H.
  destruct bs as [|b0 r0].
  - injection H as <-. split; [constructor | reflexivity].
  - apply decode_cons_inv in H as (c & r & s' & -> & Hr & Hc & Hb & Hlen).
    destruct (IH (length r) Hlen r s' eq_refl Hr) as [Hs' He].
    split; [constructor; assumption|].
    unfold encode in *. cbn [flat_map]. rewrite He. symmetry. exact Hb.
Qed.

(** Strict decoding is the inverse of the encoding form. *)
Lemma decode_Some_iff bs s : decode bs = Some s <-> is_encoding_of s bs.
Proof.
  split; [apply decode_Some_encoding|].
  intros [Hs <-]. apply decode_encode. exact Hs.
Qed.

Lemma decode_None_iff bs : decode bs = None <-> ~ valid bs.
Proof.
  split.
  - intros H [s Hs]. apply decode_Some_iff in Hs. congruence.
  - intros H. destruct (decode bs) as [s|] eqn:E; [|reflexivity].
    exfalso. apply H. exists s. apply decode_Some_iff. exact E.
Qed.

(** The decoded text is empty only for no bytes at all. *)
Lemma decode_empty bs : decode bs = Some [] -> bs = [].
Proof.
  destruct bs as [|b0 r0]; [reflexivity|]. intros H.
  apply decode_cons_inv in H as (c & r & s' & Hs & _). discriminate.
Qed.

End Utf8Facts.

(** ** The handler, step by step *)

Section Pipeline.

Context {OS Request : Type}.
Variable os_spawn :
  OS -> list str -> option bytes -> launched * OS.
Variable markdown_markdown : str -> list str -> str.

Abbreviation run := (@render_markdown OS Request os_spawn markdown_markdown).
Abbreviation launch m s := (os_spawn (os m) (validator_argv s) None).

(** A run of the handler, in full: its result is the contract applied
    to the launch, the system is left as the launch left it, and the
    log grows by the calls made. *)
Lemma render_markdown_run (request : Request) (s : str) (m : machine OS) :
  run request s m
  = (render_contract markdown_markdown request s (launch m s).1,
     {| os := (launch m s).2; log := log m ++ calls_made s (launch m s).1 |}).
Proof.
  unfold calls_made, render_markdown, subprocess_run, decode_utf8, markdown,
    bind, emit, ret, raise, with_check, with_capture_output, run_defaults,
    render_contract, select_payload, index_page, validator_argv.
  cbn [shell input capture_output check os log andb].
  destruct (os_spawn _ _ _) as [[e|p] o']; cbn [fst snd]; [reflexivity|].
  cbn [stdout stderr os log].
  destruct (Utf8.decode (out_bytes p)) as [[|c t]|]; cbn [truthy os log].
  - destruct (Utf8.decode (err_bytes p)) as [t|]; cbn [os log];
      rewrite <- ?app_assoc; reflexivity.
  - rewrite <- ?app_assoc. reflexivity.
  - rewrite <- ?app_assoc. reflexivity.
Qed.

Lemma decode_utf8_result (stream : bytes) (m : machine OS) :
  (decode_utf8 (Some stream) m).1
  = match Utf8.decode stream with
    | Some t => inr t
    | None => inl UnicodeDecodeError
    end.
Proof.
  unfold decode_utf8, bind, emit, ret, raise.
  destruct (Utf8.decode stream); reflexivity.
Qed.

Lemma render_markdown_result request s m :
  (run request s m).1
  = render_contract markdown_markdown request s (launch m s).1.
Proof. rewrite render_markdown_run. reflexivity. Qed.

Lemma render_markdown_log request s m :
  log (run request s m).2 = log m ++ calls_made s (launch m s).1.
Proof. rewrite render_markdown_run. reflexivity. Qed.

Lemma rendered_app l1 l2 : rendered (l1 ++ l2) = rendered l1 ++ rendered l2.
Proof. unfold rendered. apply flat_map_app. Qed.

Lemma spawned_app l1 l2 : spawned (l1 ++ l2) = spawned l1 ++ spawned l2.
Proof. unfold spawned. apply flat_map_app. Qed.

Lemma decoded_app l1 l2 : decoded (l1 ++ l2) = decoded l1 ++ decoded l2.
Proof. unfold decoded. apply flat_map_app. Qed.

Lemma select_payload_stdout out err t :
  Utf8.decode out = Some t -> t <> [] -> select_payload out err = inr t.
Proof.
  intros E Ht. unfold select_payload. rewrite E.
  destruct t; [contradiction | reflexivity].
Qed.

(** The selection never raises anything but a decode error, and does so
    exactly when a stream it has to decode is not text. *)
Lemma select_payload_error out err e :
  select_payload out err = inl e <->
  e = UnicodeDecodeError /\
  (~ Utf8.valid out \/ (out = [] /\ ~ Utf8.valid err)).
Proof.
  unfold select_payload. rewrite <- !Utf8Facts.decode_None_iff. split.
  - destruct (Utf8.decode out) as [[|c t]|] eqn:Eo.
    + apply Utf8Facts.decode_empty in Eo.
      destruct (Utf8.decode err); [discriminate|].
      intros [= <-]. split; [reflexivity|]. right.
      split; [assumption | reflexivity].
    + discriminate.
    + intros [= <-]. split; [reflexivity|]. left. reflexivity.
  - intros [-> [Ho | [-> He]]].
    + rewrite Ho. reflexivity.
    + rewrite Utf8Facts.decode_nil, He. reflexivity.
Qed.

(** The contract reads the launch through its two streams only. *)
Lemma render_contract_streams (request : Request) s l1 l2 r :
  streams l1 = streams l2 ->
  render_contract markdown_markdown request s l1 = inr r ->
  render_contract markdown_markdown request s l2 = inr r.
Proof.
  destruct l1 as [e1|p1], l2 as [e2|p2]; cbn [streams render_contract];
    try discriminate.
  intros [= -> ->]. trivial.
Qed.

(** What a response of [render_markdown] says about the run behind it. *)
Lemma render_markdown_inr (request : Request) s m r m' :
  run request s m = (inr r, m') ->
  exists p t,
    (launch m s).1 = inr p /\
    select_payload (out_bytes p) (err_bytes p) = inr t /\
    r = index_page request s (markdown_markdown t extensions) /\
    rendered (log m') = rendered (log m) ++ [(t, extensions)].
Proof.
  rewrite render_markdown_run. intros [= Hr <-].
  unfold render_contract in Hr. cbn [log]. rewrite rendered_app.
  destruct (launch m s).1 as [e|p]; [discriminate|].
  destruct (select_payload _ _) as [e|t] eqn:Es; [discriminate|].
  injection Hr as <-. exists p, t.
  split; [reflexivity|]. split; [exact Es|]. split; [reflexivity|].
  f_equal. unfold calls_made, select_payload in *.
  destruct (Utf8.decode (out_bytes p)) as [[|c u]|]; [| |discriminate].
  - destruct (Utf8.decode (err_bytes p)); [|discriminate].
    injection Es as ->. reflexivity.
  - injection Es as <-. reflexivity.
Qed.

(** C1. The payload handed to the Markdown renderer is the decoded
    standard output of the Validator when that text is non-empty;
    otherwise it is the decoded standard error, and the empty string
    when the standard error is empty too. *)
Theorem payload_is_stdout_else_stderr (request : Request) s m p o' :
  launch m s = (inr p, o') ->
  let passed := rendered (log (run request s m).2) in
  (forall t, Utf8.decode (out_bytes p) = Some t -> t <> [] ->
     passed = rendered (log m) ++ [(t, extensions)]) /\
  (Utf8.decode (out_bytes p) = Some [] ->
     forall t, Utf8.decode (err_bytes p) = Some t ->
     passed = rendered (log m) ++ [(t, extensions)]) /\
  (Utf8.decode (out_bytes p) = Some [] -> err_bytes p = [] ->
     passed = rendered (log m) ++ [([], extensions)]).
Proof.
  intros Hl passed. subst passed.
  rewrite render_markdown_log, rendered_app, Hl. cbn [fst]. unfold calls_made.
  repeat split.
  - intros t Ho Ht. rewrite Ho. destruct t; [contradiction|]. reflexivity.
  - intros Ho t He. rewrite Ho, He. reflexivity.
  - intros Ho He. rewrite Ho, He. reflexivity.
Qed.


(** C3. Every response of the handler echoes the submission as it was
    given, next to the HTML fragment produced: the outcome of the one
    call of the renderer, on the payload selected from the streams of
    the Validator; and the handler does respond, with that echo and that
    fragment, whenever the Validator ran and a payload could be
    selected. *)
Theorem response_echoes_submission (request : Request) s m :
  (forall r m', run request s m = (inr r, m') ->
     echoed r = Some (VStr s) /\
     exists p t,
       (launch m s).1 = inr p /\
       select_payload (out_bytes p) (err_bytes p) = inr t /\
       html r = Some (VStr (markdown_markdown t extensions)) /\
       rendered (log m') = rendered (log m) ++ [(t, extensions)]) /\
  (forall p o' t, launch m s = (inr p, o') ->
     select_payload (out_bytes p) (err_bytes p) = inr t ->
     exists r m', run request s m = (inr r, m') /\
                  echoed r = Some (VStr s) /\
                  html r = Some (VStr (markdown_markdown t extensions))).
Proof.
  split.
  - intros r m' Hr.
    apply render_markdown_inr in Hr as (p & t & Hp & Hs & -> & Hl).
    split; [reflexivity|]. exists p, t.
    split; [exact Hp|]. split; [exact Hs|]. split; [reflexivity | exact Hl].
  - intros p o' t Hl Hs. rewrite render_markdown_run, Hl.
    cbn [fst render_contract]. rewrite Hs. eexists _, _.
    split; [reflexivity|]. split; reflexivity.
Qed.

(** C4. The HTML fragment of the response is the Markdown renderer
    applied to the selected payload with the extensions [fenced_code]
    and [codehilite], these two and no other; once a payload is
    selected, the handler answers: the rendering adds no failure. *)
Theorem html_is_markdown_of_payload (request : Request) s m p o' t :
  launch m s = (inr p, o') ->
  select_payload (out_bytes p) (err_bytes p) = inr t ->
  exists r m',
    run request s m = (inr r, m') /\
    html r
    = Some (VStr (markdown_markdown t [lit "fenced_code"; lit "codehilite"])) /\
    rendered (log m')
    = rendered (log m) ++ [(t, [lit "fenced_code"; lit "codehilite"])].
Proof.
  intros Hl Hs. rewrite render_markdown_run, Hl.
  cbn [fst snd render_contract]. rewrite Hs. eexists _, _.
  split; [reflexivity|]. split; [reflexivity|].
  cbn [log]. rewrite rendered_app. f_equal.
  unfold select_payload in Hs. unfold calls_made.
  destruct (Utf8.decode (out_bytes p)) as [[|c u]|]; [| |discriminate].
  - destruct (Utf8.decode (err_bytes p)); [|discriminate].
    injection Hs as ->. reflexivity.
  - injection Hs as <-. reflexivity.
Qed.

(** C5. The Validator is launched once, as [wod check <submission>]:
    three tokens, the submission whole as the third, no shell in front
    and nothing on standard input; so it is for the empty submission. *)
Theorem validator_invocation (request : Request) s m :
  spawned (log (run request s m).2)
  = spawned (log m) ++ [([lit "wod"; lit "check"; s], None)] /\
  os (run request s m).2
  = (os_spawn (os m) [lit "wod"; lit "check"; s] None).2 /\
  spawned (log (run request [] m).2)
  = spawned (log m) ++ [([lit "wod"; lit "check"; []], None)].
Proof.
  assert (H : forall u, spawned (log (run request u m).2)
              = spawned (log m) ++ [(validator_argv u, None)]).
  { intros u. rewrite render_markdown_log, spawned_app. f_equal.
    unfold calls_made. cbn [spawned flat_map app]. f_equal.
    destruct (launch m u).1 as [e|p]; [reflexivity|].
    destruct (Utf8.decode (out_bytes p)) as [[|c t]|]; try reflexivity.
    destruct (Utf8.decode (err_bytes p)); reflexivity. }
  split; [apply H|]. split; [|apply H].
  rewrite render_markdown_run. reflexivity.
Qed.

(** C6. The exit status of the Validator has no part in the result:
    two runs whose Validators wrote the same bytes to the two streams
    give the same result whatever their exit statuses, and no result
    is the exception that a checked exit status would raise. *)
Theorem exit_status_is_ignored (request : Request) s m1 m2 p1 p2 o1 o2 :
  launch m1 s = (inr p1, o1) ->
  launch m2 s = (inr p2, o2) ->
  out_bytes p1 = out_bytes p2 ->
  err_bytes p1 = err_bytes p2 ->
  (render_markdown os_spawn markdown_markdown request s m1).1
  = (render_markdown os_spawn markdown_markdown request s m2).1 /\
  forall rc, (render_markdown os_spawn markdown_markdown request s m1).1
             <> inl (CalledProcessError rc).
Proof.
  intros H1 H2 Ho He. rewrite !render_markdown_result, H1, H2.
  cbn [fst render_contract]. rewrite Ho, He. split; [reflexivity|].
  intros rc. destruct (select_payload _ _) as [e|t] eqn:Es; [|discriminate].
  apply select_payload_error in Es as [-> _]. discriminate.
Qed.

(** C7. With a deterministic Validator, two invocations with the same
    submission, one after the other, give the same HTML: when both
    respond the two fragments are equal, and when the first responds
    so does the second. *)
Theorem twice_same_html (request : Request) s m :
  deterministic os_spawn (validator_argv s) ->
  (forall r1 r2 m',
     render_twice os_spawn markdown_markdown request s m = (inr (r1, r2), m') ->
     html r1 = html r2) /\
  (forall r1 m1,
     run request s m = (inr r1, m1) ->
     exists r2 m2,
       render_twice os_spawn markdown_markdown request s m
       = (inr (r1, r2), m2) /\
       html r2 = html r1).
Proof.
  intros Hdet.
  assert (Hrun : forall r1 m1,
             run request s m = (inr r1, m1) ->
             render_twice os_spawn markdown_markdown request s m
             = (inr (r1, r1), (run request s m1).2)).
  { intros r1 m1 H1. unfold render_twice, bind, ret. rewrite H1.
    rewrite render_markdown_run in H1. injection H1 as H1 Hm1.
    rewrite render_markdown_run. cbn [fst snd].
    rewrite (render_contract_streams request s (launch m s).1
               (launch m1 s).1 r1); [reflexivity | | exact H1].
    subst m1. cbn [os]. apply Hdet. }
  split.
  - intros r1 r2 m' H. unfold render_twice, bind, ret in H.
    destruct (run request s m) as [[e|r] m1] eqn:E1; [discriminate|].
    pose proof (Hrun r m1 eq_refl) as H'.
    unfold render_twice, bind, ret in H'. rewrite E1 in H'.
    rewrite H' in H. injection H as <- <- _. reflexivity.
  - intros r1 m1 H1. eexists _, _. split; [apply Hrun; exact H1 | reflexivity].
Qed.

(** C8. The empty submission takes the same path as any other: the
    Validator is launched with an empty third argument, the result is
    the contract applied to that launch, and it is a response whenever
    the Validator ran and a payload could be selected. *)
Theorem empty_submission_is_handled (request : Request) m :
  spawned (log (run request [] m).2)
  = spawned (log m) ++ [([lit "wod"; lit "check"; []], None)] /\
  (run request [] m).1
  = render_contract markdown_markdown request []
      (os_spawn (os m) [lit "wod"; lit "check"; []] None).1 /\
  (forall p o' t,
     os_spawn (os m) [lit "wod"; lit "check"; []] None = (inr p, o') ->
     select_payload (out_bytes p) (err_bytes p) = inr t ->
     (run request [] m).1
     = inr (index_page request [] (markdown_markdown t extensions))).
Proof.
  split; [|split].
  - rewrite render_markdown_log, spawned_app. f_equal.
    unfold calls_made. cbn [spawned flat_map app]. f_equal.
    destruct (launch m []).1 as [e|p]; [reflexivity|].
    destruct (Utf8.decode (out_bytes p)) as [[|c t]|]; try reflexivity.
    destruct (Utf8.decode (err_bytes p)); reflexivity.
  - apply render_markdown_result.
  - intros p o' t Hl Hs.
    assert (Hl' : launch m [] = (inr p, o')) by exact Hl.
    rewrite render_markdown_result, Hl'. cbn [fst render_contract].
    rewrite Hs. reflexivity.
Qed.

(** C9. When the decoded standard output is non-empty the standard
    error is not decoded: the run responds with the rendering of the
    standard output whatever bytes the standard error holds; and a
    decode error over a standard output that is valid text means that
    the standard output was empty and the standard error is not text. *)
Theorem stderr_decoded_only_if_stdout_empty (request : Request) s m p o' :
  launch m s = (inr p, o') ->
  (forall t, Utf8.decode (out_bytes p) = Some t -> t <> [] ->
     decoded (log (run request s m).2) = decoded (log m) ++ [out_bytes p] /\
     (run request s m).1
     = inr (index_page request s (markdown_markdown t extensions))) /\
  ((run request s m).1 = inl UnicodeDecodeError ->
   Utf8.valid (out_bytes p) ->
   out_bytes p = [] /\ ~ Utf8.valid (err_bytes p)).
Proof.
  intros Hl. rewrite render_markdown_result, render_markdown_log, Hl.
  cbn [fst render_contract]. split.
  - intros t Ho Ht. rewrite (select_payload_stdout _ _ t Ho Ht).
    split; [|reflexivity].
    rewrite decoded_app. f_equal. unfold calls_made. rewrite Ho.
    destruct t; [contradiction | reflexivity].
  - intros Herr Hv.
    destruct (select_payload _ _) as [e|t] eqn:Es; [|discriminate].
    apply select_payload_error in Es as [_ [Ho | Hoe]];
      [contradiction | exact Hoe].
Qed.

(** C10. The streams are decoded as strict UTF-8: decoding a captured
    byte string gives a text exactly when the bytes are the UTF-8
    encoded form of that text, and raises the decode error exactly
    when the bytes are not valid UTF-8; it never gives anything else.
    So the handler raises the decode error exactly when a stream it
    has to decode is not valid UTF-8. *)
Theorem decoding_is_strict_utf8 (stream : bytes) (m : machine OS) :
  (forall t, (decode_utf8 (Some stream) m).1 = inr t
             <-> Utf8.is_encoding_of t stream) /\
  ((decode_utf8 (Some stream) m).1 = inl UnicodeDecodeError
   <-> ~ Utf8.valid stream) /\
  (Utf8.valid stream
   \/ (decode_utf8 (Some stream) m).1 = inl UnicodeDecodeError) /\
  (forall (request : Request) s p o',
     launch m s = (inr p, o') ->
     ((run request s m).1 = inl UnicodeDecodeError
      <-> ~ Utf8.valid (out_bytes p)
          \/ (out_bytes p = [] /\ ~ Utf8.valid (err_bytes p)))).
Proof.
  rewrite decode_utf8_result. split; [|split; [|split]]; cycle 3.
  { intros request s p o' Hl. rewrite render_markdown_result, Hl.
    cbn [fst render_contract].
    destruct (select_payload _ _) as [e|t] eqn:Es.
    - apply select_payload_error in Es as [-> Hbad]. tauto.
    - split; [discriminate|]. intros Hbad.
      assert (select_payload (out_bytes p) (err_bytes p)
              = inl UnicodeDecodeError) as Hs
        by (apply select_payload_error; tauto).
      congruence. }
  - intros t. rewrite <- Utf8Facts.decode_Some_iff.
    destruct (Utf8.decode stream); split; congruence.
  - rewrite <- Utf8Facts.decode_None_iff.
    destruct (Utf8.decode stream); split; congruence.
  - destruct (Utf8.decode stream) as [u|] eqn:E.
    + left. exists u. apply Utf8Facts.decode_Some_iff. exact E.
    + right. reflexivity.
Qed.

End Pipeline.

(** ** The theorems at work on the two concrete systems *)

Lemma payload_is_stdout_else_stderr_witness :
  rendered (log (render_markdown Mock.scripted Mock.paragraph tt (lit "x")
                   (Mock.about_to Mock.ok)).2)
  = [(lit "ok", extensions)] /\
  rendered (log (render_markdown Mock.scripted Mock.paragraph tt (lit "x")
                   (Mock.about_to Mock.bad)).2)
  = [(lit "bad", extensions)] /\
  rendered (log (render_markdown Mock.scripted Mock.paragraph tt (lit "x")
                   (Mock.about_to Mock.silent)).2)
  = [([], extensions)].
Proof.
  split; [|split].
  - refine (proj1 (payload_is_stdout_else_stderr Mock.scripted Mock.paragraph
                     tt (lit "x") (Mock.about_to Mock.ok) Mock.ok [] eq_refl)
              (lit "ok") eq_refl _).
    discriminate.
  - exact (proj1 (proj2 (payload_is_stdout_else_stderr Mock.scripted
                           Mock.paragraph tt (lit "x") (Mock.about_to Mock.bad)
                           Mock.bad [] eq_refl))
             eq_refl (lit "bad") eq_refl).
  - exact (proj2 (proj2 (payload_is_stdout_else_stderr Mock.scripted
                           Mock.paragraph tt (lit "x")
                           (Mock.about_to Mock.silent) Mock.silent [] eq_refl))
             eq_refl eq_refl).
Defined.



Lemma response_echoes_submission_witness :
  exists r m',
    render_markdown Mock.scripted Mock.paragraph tt (lit " x ")
      (Mock.about_to Mock.ok) = (inr r, m') /\
    echoed r = Some (VStr (lit " x ")) /\
    html r = Some (VStr (Mock.paragraph (lit "ok") extensions)).
Proof.
  exact (proj2 (response_echoes_submission Mock.scripted Mock.paragraph tt
                  (lit " x ") (Mock.about_to Mock.ok))
           Mock.ok [] (lit "ok") eq_refl eq_refl).
Defined.

Lemma html_is_markdown_of_payload_witness :
  exists r m',
    render_markdown Mock.scripted Mock.paragraph tt (lit "x")
      (Mock.about_to Mock.bad) = (inr r, m') /\
    html r = Some (VStr (Mock.paragraph (lit "bad")
                           [lit "fenced_code"; lit "codehilite"])) /\
    rendered (log m') = [(lit "bad", [lit "fenced_code"; lit "codehilite"])].
Proof.
  exact (html_is_markdown_of_payload Mock.scripted Mock.paragraph tt (lit "x")
           (Mock.about_to Mock.bad) Mock.bad [] (lit "bad") eq_refl eq_refl).
Defined.

Lemma validator_invocation_witness :
  spawned (log (render_markdown Mock.shout Mock.paragraph tt (lit "a b; c")
                  (Mock.boot 0%nat)).2)
  = [([lit "wod"; lit "check"; lit "a b; c"], None)].
Proof.
  exact (proj1 (validator_invocation Mock.shout Mock.paragraph tt
                  (lit "a b; c") (Mock.boot 0%nat))).
Defined.

Lemma exit_status_is_ignored_witness :
  (render_markdown Mock.shout Mock.paragraph tt (lit "ab") (Mock.boot 0%nat)).1
  = (render_markdown Mock.shout Mock.paragraph tt (lit "ab")
       (Mock.boot 7%nat)).1.
Proof.
  exact (proj1 (exit_status_is_ignored Mock.shout Mock.paragraph tt (lit "ab")
                  (Mock.boot 0%nat) (Mock.boot 7%nat)
                  (ProcOutcome 0 (Utf8.encode (lit "AB")) [])
                  (ProcOutcome 7 (Utf8.encode (lit "AB")) [])
                  1%nat 8%nat eq_refl eq_refl eq_refl eq_refl)).
Defined.

Lemma twice_same_html_witness :
  exists r2 m2,
    render_twice Mock.shout Mock.paragraph tt (lit "ab") (Mock.boot 0%nat)
    = (inr (index_page tt (lit "ab") (lit "<p>AB</p>"), r2), m2) /\
    html r2 = html (index_page tt (lit "ab") (lit "<p>AB</p>")).
Proof.
  refine (proj2 (twice_same_html Mock.shout Mock.paragraph tt (lit "ab")
                   (Mock.boot 0%nat) _)
            (index_page tt (lit "ab") (lit "<p>AB</p>"))
            (render_markdown Mock.shout Mock.paragraph tt (lit "ab")
               (Mock.boot 0%nat)).2 eq_refl).
  intros o1 o2. reflexivity.
Defined.

Lemma empty_submission_is_handled_witness :
  (render_markdown Mock.shout Mock.paragraph tt [] (Mock.boot 0%nat)).1
  = inr (index_page tt [] (Mock.paragraph (lit "error: nothing to check")
                             extensions)).
Proof.
  exact (proj2 (proj2 (empty_submission_is_handled Mock.shout Mock.paragraph tt
                         (Mock.boot 0%nat)))
           (ProcOutcome 1 [] (Utf8.encode (lit "error: nothing to check")))
           1%nat (lit "error: nothing to check") eq_refl eq_refl).
Defined.

Lemma stderr_decoded_only_if_stdout_empty_witness :
  decoded (log (render_markdown Mock.scripted Mock.paragraph tt (lit "x")
                  (Mock.about_to Mock.ok_garbled)).2)
  = [Utf8.encode (lit "ok")] /\
  (render_markdown Mock.scripted Mock.paragraph tt (lit "x")
     (Mock.about_to Mock.ok_garbled)).1
  = inr (index_page tt (lit "x") (lit "<p>ok</p>")).
Proof.
  refine (proj1 (stderr_decoded_only_if_stdout_empty Mock.scripted
                   Mock.paragraph tt (lit "x") (Mock.about_to Mock.ok_garbled)
                   Mock.ok_garbled [] eq_refl)
            (lit "ok") eq_refl _).
  discriminate.
Defined.

Lemma decoding_is_strict_utf8_witness :
  (decode_utf8 (Some [Byte.xe2; Byte.x82; Byte.xac])
     (Mock.about_to Mock.silent)).1
  = inr [0x20AC] /\
  (render_markdown Mock.scripted Mock.paragraph tt (lit "x")
     (Mock.about_to Mock.garbled)).1 = inl UnicodeDecodeError.
Proof.
  split.
  - apply (proj1 (decoding_is_strict_utf8 (Request := unit) Mock.scripted
                    Mock.paragraph [Byte.xe2; Byte.x82; Byte.xac]
                    (Mock.about_to Mock.silent))
               [0x20AC]).
    split; [|reflexivity].
    constructor; [|constructor]. unfold Utf8.is_scalar. lia.
  - apply (proj2 (proj2 (proj2
             (decoding_is_strict_utf8 Mock.scripted Mock.paragraph []
                (Mock.about_to Mock.garbled)))) tt (lit "x") Mock.garbled []
             eq_refl).
    right. split; [reflexivity|].
    apply Utf8Facts.decode_None_iff. reflexivity.
Defined.

(** ** More on the decoder: lengths, ASCII, bytes that never occur *)

Module Utf8Bytes.
Import Utf8 Utf8Facts.

Lemma encode_app s t : encode (s ++ t) = encode s ++ encode t.
Proof. unfold encode. apply flat_map_app. Qed.

Lemma encode_cp_length c :
  (1 <= length (encode_cp c) <= 4)%nat.
Proof.
  unfold encode_cp.
  destruct (c <? 0x80), (c <? 0x800), (c <? 0x10000); cbn [length]; lia.
Qed.

Lemma encode_length s :
  (length s <= length (encode s) <= 4 * length s)%nat.
Proof.
  induction s as [|c s IH]; [cbn; lia|].
  unfold encode in *. cbn [flat_map]. rewrite length_app. cbn [length].
  pose proof (encode_cp_length c). lia.
Qed.

(** A text has at most as many code points as bytes, and at most four
    bytes for each code point. *)
Lemma decode_length bs s :
  decode bs = Some s -> (length s <= length bs <= 4 * length s)%nat.
Proof.
  intros H. apply decode_Some_iff in H as [_ <-]. apply encode_length.
Qed.

(** ASCII bytes decode to themselves. *)
Lemma decode_ascii bs :
  Forall is_ascii bs -> decode bs = Some (map byte_val bs).
Proof.
  induction 1 as [|b bs Hb _ IH]; [reflexivity|].
  rewrite decode_1 by exact Hb. rewrite IH. reflexivity.
Qed.

(** The bytes of an encoded scalar value. *)
Lemma encode_cp_bytes c :
  is_scalar c ->
  Forall (fun b => ~ never_in_utf8 b) (encode_cp c) /\
  exists pre b, encode_cp c = pre ++ [b] /\ ~ is_lead b.
Proof.
  intros Hc. unfold is_scalar in Hc. unfold encode_cp, never_in_utf8, is_lead.
  destruct (c <? 0x80) eqn:E1; [|destruct (c <? 0x800) eqn:E2;
    [|destruct (c <? 0x10000) eqn:E3]]; reflect_bool.
  - split; [repeat constructor|exists [], (byte_of_Z c); split; [reflexivity|]];
      byte_vals; lia.
  - split; [repeat constructor
           |exists [byte_of_Z (0xC0 + c / 64)], (byte_of_Z (0x80 + c mod 64));
            split; [reflexivity|]];
      byte_vals; Z.to_euclidean_division_equations; lia.
  - split; [repeat constructor
           |exists [byte_of_Z (0xE0 + c / 4096);
                    byte_of_Z (0x80 + (c / 64) mod 64)],
              (byte_of_Z (0x80 + c mod 64));
            split; [reflexivity|]];
      byte_vals; Z.to_euclidean_division_equations; lia.
  - split; [repeat constructor
           |exists [byte_of_Z (0xF0 + c / 262144);
                    byte_of_Z (0x80 + (c / 4096) mod 64);
                    byte_of_Z (0x80 + (c / 64) mod 64)],
              (byte_of_Z (0x80 + c mod 64));
            split; [reflexivity|]];
      byte_vals; Z.to_euclidean_division_equations; lia.
Qed.

(** A text that decodes holds none of the bytes [C0], [C1], [F5 .. FF]. *)
Lemma decode_Some_bytes bs s :
  decode bs = Some s -> Forall (fun b => ~ never_in_utf8 b) bs.
Proof.
  intros H. apply decode_Some_iff in H as [Hs <-].
  induction Hs as [|c s Hc _ IH]; [constructor|].
  unfold encode in *. cbn [flat_map]. apply Forall_app. split; [|exact IH].
  apply encode_cp_bytes. exact Hc.
Qed.

(** A text that decodes does not stop on the first byte of a sequence. *)
Lemma decode_Some_last pre b s :
  decode (pre ++ [b]) = Some s -> ~ is_lead b.
Proof.
  intros H. apply decode_Some_iff in H as [Hs He].
  destruct s as [|c s _] using rev_ind.
  - destruct pre; discriminate.
  - apply Forall_app in Hs as [_ Hc]. apply Forall_inv in Hc.
    rewrite encode_app in He. unfold encode in He at 2.
    cbn [flat_map] in He. rewrite app_nil_r in He.
    destruct (encode_cp_bytes c Hc) as [_ (pre' & b' & Hb' & Hl)].
    rewrite Hb', app_assoc in He. apply app_inj_tail in He as [_ ->].
    exact Hl.
Qed.

End Utf8Bytes.

(** ** The handler: pages, calls and failures *)

Section Handlers.

Context {OS Request : Type}.
Variable os_spawn : OS -> list str -> option bytes -> launched * OS.
Variable markdown_markdown : str -> list str -> str.

Abbreviation post := (@render_markdown OS Request os_spawn markdown_markdown).
Abbreviation started m s := (os_spawn (os m) (validator_argv s) None).

Lemma index_page_keys (request : Request) s h :
  dom (context (index_page request s h)) = page_keys.
Proof.
  unfold index_page, page_keys. cbn [context].
  rewrite !dom_insert_L, dom_singleton_L. reflexivity.
Qed.

(** What the selection of a payload says about the two streams. *)
Lemma select_payload_inr out err t :
  select_payload out err = inr t <->
  (t <> [] /\ Utf8.is_encoding_of t out) \/
  (out = [] /\ Utf8.is_encoding_of t err).
Proof.
  unfold select_payload. rewrite <- !Utf8Facts.decode_Some_iff. split.
  - destruct (Utf8.decode out) as [[|c u]|] eqn:Eo; [| |discriminate].
    + apply Utf8Facts.decode_empty in Eo.
      destruct (Utf8.decode err); [|discriminate].
      intros [= ->]. right. split; [assumption | reflexivity].
    + intros [= <-]. left. split; [discriminate | reflexivity].
  - intros [[Ht Ho] | [-> He]].
    + rewrite Ho. destruct t; [contradiction | reflexivity].
    + rewrite Utf8Facts.decode_nil, He. reflexivity.
Qed.

(** X2. Every response of [render_markdown] names the template
    [index.html] and gives it exactly the keys [request],
    [markdown_text] and [rendered_html], the first holding the request
    object the handler was called with. *)
Theorem response_fills_the_template (request : Request) s m r m' :
  render_markdown os_spawn markdown_markdown request s m = (inr r, m') ->
  name r = "index.html" /\
  dom (context r) = page_keys /\
  context r !! "request" = Some (VRequest request) /\
  forall k, k ∉ page_keys -> context r !! k = None.
Proof.
  intros H. apply render_markdown_inr in H as (p & t & _ & _ & -> & _).
  split; [reflexivity|]. split; [apply index_page_keys|].
  split; [reflexivity|].
  intros k Hk. apply not_elem_of_dom. rewrite index_page_keys. exact Hk.
Qed.


(** X4. The HTML of a response is the outcome of the single call of the
    renderer that the run made, with the two extensions. *)
Theorem response_html_is_the_one_rendering (request : Request) s m r m' :
  render_markdown os_spawn markdown_markdown request s m = (inr r, m') ->
  exists t,
    rendered (log m') = rendered (log m) ++ [(t, extensions)] /\
    html r = Some (VStr (markdown_markdown t extensions)).
Proof.
  intros H. apply render_markdown_inr in H as (p & t & _ & _ & -> & Hl).
  exists t. split; [exact Hl | reflexivity].
Qed.

(** X5. The calls of a run come in one order: the launch first, then at
    most two decodings, then at most one rendering, and a rendering
    only after a decoding. *)
Theorem calls_come_in_order (request : Request) s m :
  exists ds rs,
    log (render_markdown os_spawn markdown_markdown request s m).2
    = log m ++ [EvSpawn (validator_argv s) None]
        ++ map EvDecode ds ++ map (fun '(t, x) => EvMarkdown t x) rs /\
    (length ds <= 2)%nat /\ (length rs <= 1)%nat /\
    (length rs <= length ds)%nat.
Proof.
  rewrite render_markdown_log. unfold calls_made.
  destruct (started m s).1 as [f|p].
  { exists [], []. cbn. repeat split; lia. }
  destruct (Utf8.decode (out_bytes p)) as [[|c u]|].
  - destruct (Utf8.decode (err_bytes p)) as [t|].
    + exists [out_bytes p; err_bytes p], [(t, extensions)].
      cbn. repeat split; lia.
    + exists [out_bytes p; err_bytes p], []. cbn. repeat split; lia.
  - exists [out_bytes p], [(c :: u, extensions)]. cbn. repeat split; lia.
  - exists [out_bytes p], []. cbn. repeat split; lia.
Qed.

(** X6. When the Validator ran, the renderer is given the empty text
    exactly when the Validator wrote nothing on either stream. *)
Theorem empty_payload_iff_silent (request : Request) s m p o' :
  os_spawn (os m) (validator_argv s) None = (inr p, o') ->
  rendered (log (render_markdown os_spawn markdown_markdown request s m).2)
  = rendered (log m) ++ [([], extensions)]
  <-> out_bytes p = [] /\ err_bytes p = [].
Proof.
  intros Hl. rewrite render_markdown_log, rendered_app, Hl. cbn [fst].
  unfold calls_made. split.
  - intros H. apply app_inv_head in H.
    destruct (Utf8.decode (out_bytes p)) as [[|c u]|] eqn:Eo;
      [|discriminate|discriminate].
    apply Utf8Facts.decode_empty in Eo.
    destruct (Utf8.decode (err_bytes p)) as [t|] eqn:Ee; [|discriminate].
    cbn in H. injection H as ->.
    apply Utf8Facts.decode_empty in Ee. split; assumption.
  - intros [-> ->]. reflexivity.
Qed.

(** X7. What the Validator encodes is what is rendered: when its
    standard output is the UTF-8 form of a non-empty text, the response
    holds the rendering of that text, whatever the standard error; when
    it wrote nothing there and its standard error is the UTF-8 form of
    a text, the response holds the rendering of that one. *)
Theorem encoded_text_is_rendered (request : Request) s m p o' t :
  os_spawn (os m) (validator_argv s) None = (inr p, o') ->
  Forall Utf8.is_scalar t ->
  (t <> [] /\ out_bytes p = Utf8.encode t) \/
  (out_bytes p = [] /\ err_bytes p = Utf8.encode t) ->
  (render_markdown os_spawn markdown_markdown request s m).1
  = inr (index_page request s (markdown_markdown t extensions)).
Proof.
  intros Hl Ht H. rewrite render_markdown_result, Hl.
  cbn [fst render_contract].
  assert (Hs : select_payload (out_bytes p) (err_bytes p) = inr t).
  { apply select_payload_inr. destruct H as [[Hne Ho] | [Ho He]].
    - left. split; [exact Hne|]. split; [exact Ht | symmetry; exact Ho].
    - right. split; [exact Ho|]. split; [exact Ht | symmetry; exact He]. }
  rewrite Hs. reflexivity.
Qed.

(** X8. The text given to the renderer is made of Unicode scalar values
    and encodes back to the stream it was read from, byte for byte:
    nothing is dropped or replaced. *)
Theorem payload_encodes_back (request : Request) s m p o' t x :
  os_spawn (os m) (validator_argv s) None = (inr p, o') ->
  rendered (log (render_markdown os_spawn markdown_markdown request s m).2)
  = rendered (log m) ++ [(t, x)] ->
  Forall Utf8.is_scalar t /\
  ((t <> [] /\ Utf8.encode t = out_bytes p) \/
   (out_bytes p = [] /\ Utf8.encode t = err_bytes p)).
Proof.
  intros Hl H.
  rewrite render_markdown_log, rendered_app, Hl in H. cbn [fst] in H.
  apply app_inv_head in H. unfold calls_made in H.
  destruct (Utf8.decode (out_bytes p)) as [[|c u]|] eqn:Eo;
    [| |discriminate].
  - pose proof (Utf8Facts.decode_empty _ Eo) as Ho.
    destruct (Utf8.decode (err_bytes p)) as [t'|] eqn:Ee; [|discriminate].
    cbn in H. injection H as <- <-.
    apply Utf8Facts.decode_Some_iff in Ee as [Hsc He].
    split; [exact Hsc | right; split; assumption].
  - cbn in H. injection H as <- <-.
    apply Utf8Facts.decode_Some_iff in Eo as [Hsc He].
    split; [exact Hsc | left; split; [discriminate | exact He]].
Qed.

(** X9. An ASCII standard output never fails to decode: when it is not
    empty, the response holds the rendering of its bytes read as
    characters, one for one. *)
Theorem ascii_output_is_rendered_verbatim (request : Request) s m p o' :
  os_spawn (os m) (validator_argv s) None = (inr p, o') ->
  Forall is_ascii (out_bytes p) ->
  out_bytes p <> [] ->
  (render_markdown os_spawn markdown_markdown request s m).1
  = inr (index_page request s
           (markdown_markdown (map byte_val (out_bytes p)) extensions)).
Proof.
  intros Hl Ha Hne. rewrite render_markdown_result, Hl.
  cbn [fst render_contract].
  rewrite (select_payload_stdout _ _ (map byte_val (out_bytes p)));
    [reflexivity | apply Utf8Bytes.decode_ascii; exact Ha |].
  destruct (out_bytes p); [contradiction | discriminate].
Qed.

(** X10. A decoded text has at most as many code points as the stream
    has bytes, and the stream at most four bytes for each of them. *)
Theorem decoded_length_bounds (stream : bytes) (m : machine OS) t :
  (decode_utf8 (Some stream) m).1 = inr t ->
  (length t <= length stream <= 4 * length t)%nat.
Proof.
  rewrite decode_utf8_result.
  destruct (Utf8.decode stream) as [u|] eqn:E; [|discriminate].
  intros [= <-]. apply Utf8Bytes.decode_length. exact E.
Qed.

(** X11. A byte [C0], [C1] or [F5 .. FF] anywhere in a stream the
    handler decodes (the standard output, or the standard error after
    an empty standard output) makes it raise the decode error. *)
Theorem forbidden_byte_raises (request : Request) s m p o' b :
  os_spawn (os m) (validator_argv s) None = (inr p, o') ->
  never_in_utf8 b ->
  In b (out_bytes p) \/ (out_bytes p = [] /\ In b (err_bytes p)) ->
  (render_markdown os_spawn markdown_markdown request s m).1
  = inl UnicodeDecodeError.
Proof.
  intros Hl Hb Hin. rewrite render_markdown_result, Hl.
  cbn [fst render_contract].
  assert (Hno : forall bs, In b bs -> ~ Utf8.valid bs).
  { intros bs Hbs [u Hu]. apply Utf8Facts.decode_Some_iff in Hu.
    apply Utf8Bytes.decode_Some_bytes in Hu.
    exact (proj1 (List.Forall_forall _ _) Hu b Hbs Hb). }
  assert (Hs : select_payload (out_bytes p) (err_bytes p)
               = inl UnicodeDecodeError).
  { apply select_payload_error. split; [reflexivity|].
    destruct Hin as [Ho | [Ho He]]; [left | right; split; [exact Ho|]];
      apply Hno; assumption. }
  rewrite Hs. reflexivity.
Qed.

(** X12. A stream the handler decodes that stops on the first byte of
    a sequence of several, as an output cut in the middle of a
    character does, makes it raise the decode error. *)
Theorem truncated_output_raises (request : Request) s m p o' pre b :
  os_spawn (os m) (validator_argv s) None = (inr p, o') ->
  is_lead b ->
  out_bytes p = pre ++ [b] \/
  (out_bytes p = [] /\ err_bytes p = pre ++ [b]) ->
  (render_markdown os_spawn markdown_markdown request s m).1
  = inl UnicodeDecodeError.
Proof.
  intros Hl Hb Hcut. rewrite render_markdown_result, Hl.
  cbn [fst render_contract].
  assert (Hno : ~ Utf8.valid (pre ++ [b])).
  { intros [u Hu]. apply Utf8Facts.decode_Some_iff in Hu.
    apply Utf8Bytes.decode_Some_last in Hu. contradiction. }
  assert (Hs : select_payload (out_bytes p) (err_bytes p)
               = inl UnicodeDecodeError).
  { apply select_payload_error. split; [reflexivity|].
    destruct Hcut as [-> | [Ho ->]]; [left | right; split; [exact Ho|]];
      exact Hno. }
  rewrite Hs. reflexivity.
Qed.

End Handlers.

(** ** These properties at work on the two concrete systems *)

Lemma response_fills_the_template_witness :
  name (index_page tt (lit "x") (lit "<p>ok</p>")) = "index.html" /\
  dom (context (index_page tt (lit "x") (lit "<p>ok</p>"))) = page_keys /\
  context (index_page tt (lit "x") (lit "<p>ok</p>")) !! "request"
  = Some (VRequest tt) /\
  forall k, k ∉ page_keys ->
            context (index_page tt (lit "x") (lit "<p>ok</p>")) !! k = None.
Proof.
  exact (response_fills_the_template Mock.scripted Mock.paragraph tt (lit "x")
           (Mock.about_to Mock.ok)
           (index_page tt (lit "x") (lit "<p>ok</p>"))
           (render_markdown Mock.scripted Mock.paragraph tt (lit "x")
              (Mock.about_to Mock.ok)).2
           eq_refl).
Defined.


Lemma response_html_is_the_one_rendering_witness :
  exists t,
    rendered (log (render_markdown Mock.scripted Mock.paragraph tt (lit "x")
                     (Mock.about_to Mock.bad)).2)
    = [(t, extensions)] /\
    html (index_page tt (lit "x") (lit "<p>bad</p>"))
    = Some (VStr (Mock.paragraph t extensions)).
Proof.
  exact (response_html_is_the_one_rendering Mock.scripted Mock.paragraph tt
           (lit "x") (Mock.about_to Mock.bad)
           (index_page tt (lit "x") (lit "<p>bad</p>"))
           (render_markdown Mock.scripted Mock.paragraph tt (lit "x")
              (Mock.about_to Mock.bad)).2
           eq_refl).
Defined.

Lemma empty_payload_iff_silent_witness :
  rendered (log (render_markdown Mock.scripted Mock.paragraph tt (lit "x")
                   (Mock.about_to Mock.silent)).2)
  = [([], extensions)].
Proof.
  exact (proj2 (empty_payload_iff_silent Mock.scripted Mock.paragraph tt
                  (lit "x") (Mock.about_to Mock.silent) Mock.silent []
                  eq_refl)
           (conj eq_refl eq_refl)).
Defined.

Lemma encoded_text_is_rendered_witness :
  (render_markdown Mock.scripted Mock.paragraph tt (lit "x")
     (Mock.boot [inr (ProcOutcome 0 (Utf8.encode [0x20AC; 0x1F600])
                        [Byte.xff])])).1
  = inr (index_page tt (lit "x")
           (Mock.paragraph [0x20AC; 0x1F600] extensions)).
Proof.
  apply (encoded_text_is_rendered Mock.scripted Mock.paragraph tt (lit "x")
           (Mock.boot [inr (ProcOutcome 0 (Utf8.encode [0x20AC; 0x1F600])
                              [Byte.xff])])
           (ProcOutcome 0 (Utf8.encode [0x20AC; 0x1F600]) [Byte.xff]) []
           [0x20AC; 0x1F600] eq_refl).
  - repeat constructor; unfold Utf8.is_scalar; lia.
  - left. split; [discriminate | reflexivity].
Defined.

Lemma payload_encodes_back_witness :
  Forall Utf8.is_scalar (lit "bad") /\
  ((lit "bad" <> [] /\ Utf8.encode (lit "bad") = out_bytes Mock.bad) \/
   (out_bytes Mock.bad = [] /\ Utf8.encode (lit "bad") = err_bytes Mock.bad)).
Proof.
  exact (payload_encodes_back Mock.scripted Mock.paragraph tt (lit "x")
           (Mock.about_to Mock.bad) Mock.bad [] (lit "bad") extensions
           eq_refl eq_refl).
Defined.

Lemma ascii_output_is_rendered_verbatim_witness :
  (render_markdown Mock.scripted Mock.paragraph tt (lit "x")
     (Mock.about_to Mock.hello)).1
  = inr (index_page tt (lit "x")
           (Mock.paragraph [0x68; 0x69; 0x0A] extensions)).
Proof.
  apply (ascii_output_is_rendered_verbatim Mock.scripted Mock.paragraph tt
           (lit "x") (Mock.about_to Mock.hello) Mock.hello [] eq_refl).
  - repeat constructor; unfold is_ascii; vm_compute; reflexivity.
  - discriminate.
Defined.

Lemma decoded_length_bounds_witness :
  (length (lit "ok") <= length (Utf8.encode (lit "ok"))
   <= 4 * length (lit "ok"))%nat.
Proof.
  exact (decoded_length_bounds (Utf8.encode (lit "ok"))
           (Mock.about_to Mock.silent) (lit "ok") eq_refl).
Defined.

Lemma forbidden_byte_raises_witness :
  (render_markdown Mock.scripted Mock.paragraph tt (lit "x")
     (Mock.about_to Mock.utf16)).1 = inl UnicodeDecodeError.
Proof.
  apply (forbidden_byte_raises Mock.scripted Mock.paragraph tt (lit "x")
           (Mock.about_to Mock.utf16) Mock.utf16 [] Byte.xfe eq_refl).
  - right. right. vm_compute. discriminate.
  - left. right. left. reflexivity.
Defined.

Lemma truncated_output_raises_witness :
  (render_markdown Mock.scripted Mock.paragraph tt (lit "x")
     (Mock.about_to Mock.latin1)).1 = inl UnicodeDecodeError.
Proof.
  apply (truncated_output_raises Mock.scripted Mock.paragraph tt (lit "x")
           (Mock.about_to Mock.latin1) Mock.latin1 []
           [Byte.x63; Byte.x61; Byte.x66] Byte.xe9 eq_refl).
  - vm_compute. discriminate.
  - right. split; reflexivity.
Defined.
